(** * backend/utils/summarize.py

    A shallow embedding of the summary module: the access validator
    [validate_access_permissions], the summary generator
    [generate_summary_content] and the orchestrator
    [process_summary_generation].

    The module is a straight-line request handler whose whole behaviour is the
    sequence of calls it makes to its collaborators (the [crud] functions, the
    Azure OpenAI client and the logger) and the exception or value it ends
    with.  A Python function is therefore embedded as a finite tree of calls
    ([prog]); running the tree against an arbitrary collaborator ([handler])
    yields the outcome, the final external state and the trace of calls with
    their replies. *)

From Stdlib Require Import ZArith QArith String Ascii List Lia DecimalString DecimalZ DecimalPos.
From stdpp Require Import base option strings gmap.
Import ListNotations.

Local Open Scope Z_scope.
Local Open Scope string_scope.
Local Open Scope list_scope.

(** ** Python values *)

(** Identifiers reach the module as [int] (ORM primary keys, the validator's
    annotation of [transcript_id]) or as [str] (the orchestrator's annotations,
    the requesting user id); a nullable column reads as [None]. *)
Inductive pyval : Type :=
| PyInt (z : Z)
| PyStr (s : string)
| PyNone.

(** Python's [str(v)], also what an f-string placeholder [{v}] renders. *)
Definition py_str (v : pyval) : string :=
  match v with
  | PyInt z => NilZero.string_of_int (Z.to_int z)
  | PyStr s => s
  | PyNone => "None"
  end.

Definition nl : string := String "010"%char EmptyString.

(** ** Exceptions *)

(** The two classes the module tells apart: [fastapi.HTTPException] and every
    other subclass of [Exception], of which only [str(e)] is ever read.
    Interpreter signals that derive from [BaseException] alone
    ([KeyboardInterrupt], [SystemExit]) are not errors of a collaborator and
    are left out. *)
Inductive exn : Type :=
| HTTPException (status_code : Z) (detail : string)
| Exception (msg : string).

(** [str(e)].  For an [HTTPException] this is Starlette's [__str__],
    [f"{self.status_code}: {self.detail}"]. *)
Definition str_exn (e : exn) : string :=
  match e with
  | HTTPException status_code detail => py_str (PyInt status_code) +:+ ": " +:+ detail
  | Exception msg => msg
  end.

(** The [AttributeError] Python raises for [obj.attr] on an object of class
    [cls] without that attribute. *)
Definition AttributeError (cls attr : string) : exn :=
  Exception ("'" +:+ cls +:+ "' object has no attribute '" +:+ attr +:+ "'").

(** The [IndexError] of [l[i]] on a list that is too short. *)
Definition IndexError : exn := Exception "list index out of range".

(** ** Records of the persistence layer

    The ORM classes live in [db_control], outside this module; each record
    lists the attributes the module reads. *)

Module Transcript.
(** [content] and [text] are the two alternative names of the text column
    (line 116); [None] means the object has no such attribute. *)
Record t : Type := mk {
  video_id : pyval;
  content : option string;
  text : option string
}.
(** Modelled from the spec: the ORM class is declared in [db_control]; the
    spec names the entity Transcript. *)
Definition class_name : string := "Transcript".
End Transcript.

Module Video.
Record t : Type := mk { minutes_id : pyval }.
End Video.

Module Minutes.
Record t : Type := mk { user_id : pyval }.
End Minutes.

Module Summary.
Record t : Type := mk { id : pyval; content : string }.
End Summary.

(** ** The completion API *)

Record Message : Type := mkMessage { role : string; message_text : string }.

(** The keyword arguments of [client.chat.completions.create]; the literal
    [0.7] is kept as the rational it denotes. *)
Record ChatRequest : Type := mkChatRequest {
  model : string;
  messages : list Message;
  temperature : Q;
  max_tokens : Z
}.

Record Choice : Type := mkChoice { message_content : string }.

Record ChatCompletion : Type := mkChatCompletion { choices : list Choice }.

(** ** Calls to the collaborators *)

Inductive call : Type :=
| get_transcript_by_id (transcript_id : pyval)
| get_video_by_id (video_id : pyval)
| get_minutes (minutes_id : pyval)
| create_summary (transcript_id : pyval) (summary_content : string)
| chat_completions_create (request : ChatRequest)
| logger_error (msg : string)
| logger_info (msg : string).

(** What a call comes back with: [inl e] when it raised [e], [inr v] when it
    returned [v]. A lookup returns [None] for an absent record. *)
Definition reply (c : call) : Type :=
  match c with
  | get_transcript_by_id _ => exn + option Transcript.t
  | get_video_by_id _ => exn + option Video.t
  | get_minutes _ => exn + option Minutes.t
  | create_summary _ _ => exn + Summary.t
  | chat_completions_create _ => exn + ChatCompletion
  | logger_error _ => unit
  | logger_info _ => unit
  end%type.

Record event : Type := Event { ev_call : call; ev_reply : reply ev_call }.

(** ** Programs *)

Inductive prog (A : Type) : Type :=
| Ret (a : A)
| Raise (e : exn)
| Vis (c : call) (k : reply c -> prog A).

Arguments Ret {A} a.
Arguments Raise {A} e.
Arguments Vis {A} c k.

Fixpoint bind {A B : Type} (m : prog A) (f : A -> prog B) : prog B :=
  match m with
  | Ret a => f a
  | Raise e => Raise e
  | Vis c k => Vis c (fun r => bind (k r) f)
  end.

(** [try: body / except Exception as e: handler e]. *)
Fixpoint try_except {A : Type} (body : prog A) (handler : exn -> prog A) : prog A :=
  match body with
  | Ret a => Ret a
  | Raise e => handler e
  | Vis c k => Vis c (fun r => try_except (k r) handler)
  end.

Declare Scope prog_scope.
Delimit Scope prog_scope with prog.
Bind Scope prog_scope with prog.

Notation "x <- m ;; k" := (bind m (fun x => k))
  (at level 100, m at next level, right associativity) : prog_scope.
Notation "m ;; k" := (bind m (fun _ => k))
  (at level 100, right associativity) : prog_scope.

(** A call that raises what the collaborator raised. *)
Definition perform {A : Type} (c : call) (unpack : reply c -> exn + A) : prog A :=
  Vis c (fun r => match unpack r with inl e => Raise e | inr v => Ret v end).

Module crud.
Definition get_transcript_by_id (transcript_id : pyval) : prog (option Transcript.t) :=
  perform (get_transcript_by_id transcript_id) (fun r => r).
Definition get_video_by_id (video_id : pyval) : prog (option Video.t) :=
  perform (get_video_by_id video_id) (fun r => r).
Definition get_minutes (minutes_id : pyval) : prog (option Minutes.t) :=
  perform (get_minutes minutes_id) (fun r => r).
Definition create_summary (transcript_id : pyval) (summary_content : string)
  : prog Summary.t :=
  perform (create_summary transcript_id summary_content) (fun r => r).
End crud.

Module logger.
Definition error (msg : string) : prog unit := Vis (logger_error msg) (fun _ => Ret tt).
Definition info (msg : string) : prog unit := Vis (logger_info msg) (fun _ => Ret tt).
End logger.

Module client.
Definition chat_completions_create (request : ChatRequest) : prog ChatCompletion :=
  perform (chat_completions_create request) (fun r => r).
End client.

(** ** Running a program against its collaborators *)

Definition handler (W : Type) : Type := forall c : call, W -> reply c * W.

Record outcome (W A : Type) : Type := Outcome {
  result : exn + A;
  final : W;
  trace : list event
}.

Arguments Outcome {W A} result final trace.
Arguments result {W A} o.
Arguments final {W A} o.
Arguments trace {W A} o.

Fixpoint run {W A : Type} (h : handler W) (p : prog A) (w : W) : outcome W A :=
  match p with
  | Ret a => Outcome (inr a) w []
  | Raise e => Outcome (inl e) w []
  | Vis c k =>
      let r := fst (h c w) in
      let o := run h (k r) (snd (h c w)) in
      Outcome (result o) (final o) (Event c r :: trace o)
  end.

(** ** The module *)

Local Open Scope prog_scope.

(** Lines 17-59. *)
Definition validate_access_permissions (transcript_id user_id : pyval) : prog unit :=
  transcript <- crud.get_transcript_by_id transcript_id ;;
  match transcript with
  | None =>
      logger.error ("文字起こしデータが見つかりません: transcript_id=" +:+ py_str transcript_id) ;;
      Raise (HTTPException 404 "指定された文字起こしIDのデータが見つかりません")
  | Some transcript =>
      video <- crud.get_video_by_id (Transcript.video_id transcript) ;;
      match video with
      | None => Raise (HTTPException 404 "動画が見つかりません")
      | Some video =>
          minutes <- crud.get_minutes (Video.minutes_id video) ;;
          match minutes with
          | None =>
              logger.error ("議事録データが見つかりません: minutes_id="
                            +:+ py_str (Video.minutes_id video)) ;;
              Raise (HTTPException 404 "議事録データが見つかりません")
          | Some minutes =>
              if negb (String.eqb (py_str (Minutes.user_id minutes)) (py_str user_id))
              then
                logger.error ("アクセス権限がありません: minutes_user_id="
                              +:+ py_str (Minutes.user_id minutes)
                              +:+ ", request_user_id=" +:+ py_str user_id) ;;
                Raise (HTTPException 403 "この議事録へのアクセス権限がありません")
              else Ret tt
          end
      end
  end.

(** [os.getenv(name, default)] over the process environment. *)
Definition os_getenv (environ : gmap string string) (name default_value : string) : string :=
  default default_value (environ !! name).

Definition system_instruction : string :=
  "あなたは会議の議事録を要約する専門家です。与えられた文字起こし文章を、重要なポイントを漏らさず、簡潔にマークダウン記法で要約してください。見出しには`### を使ってください。それ以上の大きな見出し # や ## は使わないでください。".

Definition error_prefix : string := "要約の生成中にエラーが発生しました: ".

(** Lines 76-83, the arguments of [client.chat.completions.create]. *)
Definition completion_request (environ : gmap string string)
    (transcript_content : string) : ChatRequest :=
  {| model := os_getenv environ "AZURE_OPENAI_DEPLOYMENT_CHAT" "gpt-4.1";
     messages :=
       [ mkMessage "system" system_instruction;
         mkMessage "user" ("以下の会議の文字起こしを要約してください："
                           +:+ nl +:+ nl +:+ transcript_content) ];
     temperature := 7 # 10;
     max_tokens := 1000 |}.

(** Lines 61-91. *)
Definition generate_summary_content (environ : gmap string string)
    (transcript_content : string) : prog string :=
  try_except
    (response <- client.chat_completions_create
                   (completion_request environ transcript_content) ;;
     match choices response with
     | [] => Raise IndexError
     | choice :: _ => Ret (message_content choice)
     end)
    (fun e =>
       let error_message := error_prefix +:+ str_exn e in
       logger.error error_message ;;
       Raise (HTTPException 500 error_message)).

(** Line 116: [transcript.content if hasattr(transcript, 'content') else
    transcript.text], on what the lookup of line 115 returned. *)
Definition content_or_text (transcript : option Transcript.t) : prog string :=
  match transcript with
  | None => Raise (AttributeError "NoneType" "text")
  | Some transcript =>
      match Transcript.content transcript with
      | Some content => Ret content
      | None =>
          match Transcript.text transcript with
          | Some text => Ret text
          | None => Raise (AttributeError Transcript.class_name "text")
          end
      end
  end.

(** Line 109, the request's log entry. *)
Definition request_log (transcript_id user_id : pyval) : string :=
  "要約生成リクエスト: transcript_id=" +:+ py_str transcript_id
  +:+ ", user_id=" +:+ py_str user_id.

(** Line 124, the log entry of the stored summary. *)
Definition stored_log (summary : Summary.t) : string :=
  "サマリーを作成/更新しました: summary_id=" +:+ py_str (Summary.id summary).

(** Lines 115-126, what the [try] does once validation has returned. *)
Definition summarize_and_store (environ : gmap string string)
    (transcript_id : pyval) : prog string :=
  transcript <- crud.get_transcript_by_id transcript_id ;;
  transcript_content <- content_or_text transcript ;;
  summary_content <- generate_summary_content environ transcript_content ;;
  logger.info "要約の生成が完了しました" ;;
  summary <- crud.create_summary transcript_id summary_content ;;
  logger.info (stored_log summary) ;;
  Ret (Summary.content summary).

(** Lines 109-126, the body of the [try]. *)
Definition process_summary_generation_try (environ : gmap string string)
    (transcript_id user_id : pyval) : prog string :=
  logger.info (request_log transcript_id user_id) ;;
  validate_access_permissions transcript_id user_id ;;
  summarize_and_store environ transcript_id.

(** Lines 128-136, the two [except] clauses. *)
Definition process_summary_generation_except (e : exn) : prog string :=
  match e with
  | HTTPException _ _ => Raise e
  | Exception _ =>
      let error_message := error_prefix +:+ str_exn e in
      logger.error error_message ;;
      Raise (HTTPException 500 error_message)
  end.

(** Lines 93-136. *)
Definition process_summary_generation (environ : gmap string string)
    (transcript_id user_id : pyval) : prog string :=
  try_except (process_summary_generation_try environ transcript_id user_id)
             process_summary_generation_except.

Local Close Scope prog_scope.

(** ** Reading traces *)

Definition calls (tr : list event) : list call := map ev_call tr.

Definition is_lookup (c : call) : bool :=
  match c with
  | get_transcript_by_id _ | get_video_by_id _ | get_minutes _ => true
  | _ => false
  end.

Definition is_log (c : call) : bool :=
  match c with
  | logger_error _ | logger_info _ => true
  | _ => false
  end.

Definition is_completion (c : call) : bool :=
  match c with
  | chat_completions_create _ => true
  | _ => false
  end.

Definition is_write (c : call) : bool :=
  match c with
  | create_summary _ _ => true
  | _ => false
  end.

(** The messages passed to [logger.error], in order. *)
Definition error_logs (tr : list event) : list string :=
  omap (fun c => match c with logger_error msg => Some msg | _ => None end) (calls tr).

(** The exception a completion call came back with, if the event is one. *)
Definition completion_failure (ev : event) : option exn :=
  match ev with
  | Event c r =>
      match c return reply c -> option exn with
      | chat_completions_create _ => fun r => match r with inl e => Some e | inr _ => None end
      | _ => fun _ => None
      end r
  end.

(** The exceptions raised by the completion calls of a trace. *)
Definition completion_failures (tr : list event) : list exn := omap completion_failure tr.

(** [needle] occurs in [s]. *)
Definition contains (s needle : string) : Prop :=
  exists before after : string, s = before +:+ needle +:+ after.

(** A collaborator whose lookups and logger leave the external state alone. *)
Definition read_only_lookups {W : Type} (h : handler W) : Prop :=
  forall (c : call) (w : W), is_lookup c || is_log c = true -> snd (h c w) = w.

(** The state the collaborator is left in by the three lookups of a chain
    that resolves to [t], [v], [m] from state [w]. *)
Definition resolves {W : Type} (h : handler W) (transcript_id : pyval) (w : W)
    (t : Transcript.t) (v : Video.t) (m : Minutes.t) (w3 : W) : Prop :=
  exists w1 w2 : W,
    h (get_transcript_by_id transcript_id) w = (inr (Some t), w1) /\
    h (get_video_by_id (Transcript.video_id t)) w1 = (inr (Some v), w2) /\
    h (get_minutes (Video.minutes_id v)) w2 = (inr (Some m), w3).

(** A creation function that stores and returns the text it is given. *)
Definition stores_and_returns {W : Type} (h : handler W) : Prop :=
  forall (transcript_id : pyval) (summary_content : string) (w : W),
  exists summary : Summary.t,
    fst (h (create_summary transcript_id summary_content) w) = inr summary /\
    Summary.content summary = summary_content.

(** The messages passed to [logger.info], in order. *)
Definition info_logs (tr : list event) : list string :=
  omap (fun c => match c with logger_info msg => Some msg | _ => None end) (calls tr).

(** The call and the exception, if the event is a call that raised. *)
Definition raised (ev : event) : option (call * exn) :=
  match ev with
  | Event c r =>
      match c return reply c -> option (call * exn) with
      | get_transcript_by_id _ | get_video_by_id _ | get_minutes _
      | create_summary _ _ | chat_completions_create _ =>
          fun r => match r with inl e => Some (c, e) | inr _ => None end
      | logger_error _ | logger_info _ => fun _ => None
      end r
  end.

(** The calls of a trace that raised, with what they raised. *)
Definition raised_by (tr : list event) : list (call * exn) := omap raised tr.

(** The response, if the event is a completion call that returned. *)
Definition completion_reply (ev : event) : option ChatCompletion :=
  match ev with
  | Event c r =>
      match c return reply c -> option ChatCompletion with
      | chat_completions_create _ =>
          fun r => match r with inl _ => None | inr response => Some response end
      | _ => fun _ => None
      end r
  end.

(** The responses the completion calls of a trace returned. *)
Definition completion_replies (tr : list event) : list ChatCompletion :=
  omap completion_reply tr.

(** The failures the module raises of its own: the validator's three 404s
    and its 403 (lines 32-35, 40-43, 49-52, 56-59), and the 500 of the
    generator and of the orchestrator (lines 88-91, 133-136). *)
Definition module_failure (e : exn) : Prop :=
  e = HTTPException 404 "指定された文字起こしIDのデータが見つかりません" \/
  e = HTTPException 404 "動画が見つかりません" \/
  e = HTTPException 404 "議事録データが見つかりません" \/
  e = HTTPException 403 "この議事録へのアクセス権限がありません" \/
  exists msg : string, e = HTTPException 500 (error_prefix +:+ msg).

(** ** A database

    Modelled from the spec: the [crud] functions are defined in [db_control],
    outside this module.  Section 6 gives their contract: the three lookups
    return the record or nothing, [createSummary] creates or updates the one
    summary of a transcript and returns it. *)

#[global] Instance pyval_eq_dec : EqDecision pyval.
Proof. solve_decision. Defined.

#[global] Instance pyval_countable : Countable pyval.
Proof.
  refine (inj_countable'
            (fun v => match v with
                      | PyInt z => inl z
                      | PyStr s => inr (Some s)
                      | PyNone => inr None
                      end)
            (fun x => match x with
                      | inl z => PyInt z
                      | inr (Some s) => PyStr s
                      | inr None => PyNone
                      end) _).
  intros []; reflexivity.
Defined.

Record Db : Type := mkDb {
  transcripts : gmap pyval Transcript.t;
  videos : gmap pyval Video.t;
  minutes_documents : gmap pyval Minutes.t;
  summaries : gmap pyval Summary.t;   (* keyed by transcript id *)
  next_summary_id : Z
}.

Definition upsert_summary (d : Db) (transcript_id : pyval) (summary_content : string)
  : Summary.t * Db :=
  match summaries d !! transcript_id with
  | Some old =>
      let s := Summary.mk (Summary.id old) summary_content in
      (s, mkDb (transcripts d) (videos d) (minutes_documents d)
               (<[transcript_id := s]> (summaries d)) (next_summary_id d))
  | None =>
      let s := Summary.mk (PyInt (next_summary_id d)) summary_content in
      (s, mkDb (transcripts d) (videos d) (minutes_documents d)
               (<[transcript_id := s]> (summaries d)) (next_summary_id d + 1))
  end.

(** The collaborators over a database, with the completion endpoint stubbed
    by [provider]. *)
Definition db_handler (provider : ChatRequest -> exn + ChatCompletion) : handler Db :=
  fun c d =>
    match c return reply c * Db with
    | get_transcript_by_id transcript_id => (inr (transcripts d !! transcript_id), d)
    | get_video_by_id video_id => (inr (videos d !! video_id), d)
    | get_minutes minutes_id => (inr (minutes_documents d !! minutes_id), d)
    | create_summary transcript_id summary_content =>
        let '(s, d') := upsert_summary d transcript_id summary_content in (inr s, d')
    | chat_completions_create request => (provider request, d)
    | logger_error _ => (tt, d)
    | logger_info _ => (tt, d)
    end.

(** A collaborator under which the transcript is deleted by another request
    after its first lookup: the state counts the transcript lookups made. *)
Definition vanishing_transcript : handler nat :=
  fun c n =>
    match c return reply c * nat with
    | get_transcript_by_id _ =>
        (inr (match n with
              | O => Some (Transcript.mk (PyInt 7) (Some "Meeting about budget.") None)
              | S _ => None
              end), S n)
    | get_video_by_id _ => (inr (Some (Video.mk (PyInt 3))), n)
    | get_minutes _ => (inr (Some (Minutes.mk (PyStr "u1"))), n)
    | create_summary _ summary_content => (inr (Summary.mk (PyInt 1) summary_content), n)
    | chat_completions_create _ => (inr (mkChatCompletion [mkChoice "### Summary"]), n)
    | logger_error _ => (tt, n)
    | logger_info _ => (tt, n)
    end.

(** A database with one transcript, its video and its minutes-document owned
    by user [u1]. *)
Definition budget_db : Db :=
  mkDb {[ PyInt 1 := Transcript.mk (PyInt 7) (Some "Meeting about budget.") None ]}
       {[ PyInt 7 := Video.mk (PyInt 3) ]}
       {[ PyInt 3 := Minutes.mk (PyStr "u1") ]}
       ∅ 1.

(** The same database without the minutes-document, without the video, and
    without anything. *)
Definition unfiled_db : Db :=
  mkDb (transcripts budget_db) (videos budget_db) ∅ ∅ 1.

Definition orphan_db : Db :=
  mkDb (transcripts budget_db) ∅ ∅ ∅ 1.

Definition empty_db : Db := mkDb ∅ ∅ ∅ ∅ 1.

Definition budget_summary : string := "### Summary" +:+ nl +:+ "Budget discussed.".

Definition budget_provider (request : ChatRequest) : exn + ChatCompletion :=
  inr (mkChatCompletion [mkChoice budget_summary]).

Definition failing_provider (request : ChatRequest) : exn + ChatCompletion :=
  inl (Exception "Request timed out.").

(** A provider that returns a response without choices. *)
Definition silent_provider (request : ChatRequest) : exn + ChatCompletion :=
  inr (mkChatCompletion []).

(** A database whose transcript keeps its text under [text], not
    [content]. *)
Definition legacy_db : Db :=
  mkDb {[ PyInt 1 := Transcript.mk (PyInt 7) None (Some "Meeting about hiring.") ]}
       (videos budget_db) (minutes_documents budget_db) ∅ 1.

(** The budget meeting filed under a numeric owner id. *)
Definition numbered_db : Db :=
  mkDb (transcripts budget_db) (videos budget_db)
       {[ PyInt 3 := Minutes.mk (PyInt 42) ]} ∅ 1.

(** The collaborators over a database, except that the calls picked by
    [fault] raise. *)
Definition faulty (fault : call -> option exn)
    (provider : ChatRequest -> exn + ChatCompletion) : handler Db :=
  fun c d =>
    match fault c with
    | None => db_handler provider c d
    | Some e =>
        match c return reply c * Db with
        | get_transcript_by_id _ => (inl e, d)
        | get_video_by_id _ => (inl e, d)
        | get_minutes _ => (inl e, d)
        | create_summary _ _ => (inl e, d)
        | chat_completions_create _ => (inl e, d)
        | logger_error _ => (tt, d)
        | logger_info _ => (tt, d)
        end
    end.

(** The video lookup loses its connection; the write finds the disk full. *)
Definition video_lookup_fails (c : call) : option exn :=
  match c with
  | get_video_by_id _ => Some (Exception "connection lost")
  | _ => None
  end.

Definition write_fails (c : call) : option exn :=
  match c with
  | create_summary _ _ => Some (Exception "disk full")
  | _ => None
  end.

(** ** Running sequences and handlers *)

Section Run.
Context {W : Type} (h : handler W).

Lemma run_bind {A B : Type} (m : prog A) (f : A -> prog B) (w : W) :
  run h (bind m f) w =
  match result (run h m w) with
  | inl e => Outcome (inl e) (final (run h m w)) (trace (run h m w))
  | inr a =>
      let o := run h (f a) (final (run h m w)) in
      Outcome (result o) (final o) (trace (run h m w) ++ trace o)
  end.
Proof.
  revert w; induction m as [a | e | c k IH]; intros w; simpl.
  - destruct (run h (f a) w); reflexivity.
  - reflexivity.
  - rewrite IH. destruct (result (run h (k _) _)); reflexivity.
Qed.

Lemma run_try_except {A : Type} (body : prog A) (on_exn : exn -> prog A) (w : W) :
  run h (try_except body on_exn) w =
  match result (run h body w) with
  | inr a => run h body w
  | inl e =>
      let o := run h (on_exn e) (final (run h body w)) in
      Outcome (result o) (final o) (trace (run h body w) ++ trace o)
  end.
Proof.
  revert w; induction body as [a | e | c k IH]; intros w; simpl.
  - reflexivity.
  - destruct (run h (on_exn e) w); reflexivity.
  - rewrite IH. destruct (run h (k _) _) as [[e | a] fin tr]; reflexivity.
Qed.

(** A run that only looks up and logs, against a collaborator whose lookups
    and logger change nothing, ends in the state it started in. *)
Lemma run_read_only {A : Type} (p : prog A) (w : W) :
  read_only_lookups h ->
  forallb (fun c => is_lookup c || is_log c) (calls (trace (run h p w))) = true ->
  final (run h p w) = w.
Proof.
  intros Hro. revert w; induction p as [a | e | c k IH]; intros w; simpl; try reflexivity.
  intros [Hc Hrest]%andb_prop.
  rewrite (Hro c w Hc) in Hrest |- *. rewrite (IH _ w Hrest). reflexivity.
Qed.
End Run.

(** Case analysis on what the collaborators reply along a run. *)
Ltac reply_case h :=
  match goal with
  | |- context [h ?c ?w] =>
      let r := fresh "r" in
      let w' := fresh "w" in
      let E := fresh "E" in
      destruct (h c w) as [r w'] eqn:E; simpl in r; simpl
  end.

Ltac value_case :=
  match goal with
  | |- context [match ?x with _ => _ end] => is_var x; destruct x; simpl
  | |- context [match Transcript.content ?t with _ => _ end] =>
      destruct (Transcript.content t) eqn:?; simpl
  | |- context [match Transcript.text ?t with _ => _ end] =>
      destruct (Transcript.text t) eqn:?; simpl
  | |- context [match choices ?r with _ => _ end] => destruct (choices r) eqn:?; simpl
  | |- context [if ?b then _ else _] => destruct b eqn:?; simpl
  end.

Ltac unit_case := match goal with u : unit |- _ => destruct u end.

Ltac run_cases h := simpl; repeat first [ unit_case | value_case | reply_case h ].

(** ** The access validator *)

Section Validator.
Context {W : Type} (h : handler W).

Ltac step H := simpl; rewrite H; simpl.

(** C1. Whatever the collaborators' state, the validator looks up the
    transcript, then its video, then the video's minutes-document, and
    stops at the first lookup that finds nothing: 404 for an absent
    transcript, 404 for an absent video, 404 for an absent
    minutes-document, and 403 when the owner's id differs from the
    requester's.  The calls made in each case are exactly the lookups up
    to the failing one (and the logger). *)
Theorem validate_access_permissions_failures (transcript_id user_id : pyval) (w : W) :
  let o := run h (validate_access_permissions transcript_id user_id) w in
  (forall w1,
      h (get_transcript_by_id transcript_id) w = (inr None, w1) ->
      result o = inl (HTTPException 404 "指定された文字起こしIDのデータが見つかりません") /\
      List.filter is_lookup (calls (trace o)) = [get_transcript_by_id transcript_id])
  /\
  (forall t w1 w2,
      h (get_transcript_by_id transcript_id) w = (inr (Some t), w1) ->
      h (get_video_by_id (Transcript.video_id t)) w1 = (inr None, w2) ->
      result o = inl (HTTPException 404 "動画が見つかりません") /\
      List.filter is_lookup (calls (trace o)) =
        [get_transcript_by_id transcript_id; get_video_by_id (Transcript.video_id t)])
  /\
  (forall t v w1 w2 w3,
      h (get_transcript_by_id transcript_id) w = (inr (Some t), w1) ->
      h (get_video_by_id (Transcript.video_id t)) w1 = (inr (Some v), w2) ->
      h (get_minutes (Video.minutes_id v)) w2 = (inr None, w3) ->
      result o = inl (HTTPException 404 "議事録データが見つかりません") /\
      List.filter is_lookup (calls (trace o)) =
        [get_transcript_by_id transcript_id; get_video_by_id (Transcript.video_id t);
         get_minutes (Video.minutes_id v)])
  /\
  (forall t v m w3,
      resolves h transcript_id w t v m w3 ->
      py_str (Minutes.user_id m) <> py_str user_id ->
      result o = inl (HTTPException 403 "この議事録へのアクセス権限がありません") /\
      List.filter is_lookup (calls (trace o)) =
        [get_transcript_by_id transcript_id; get_video_by_id (Transcript.video_id t);
         get_minutes (Video.minutes_id v)]).
Proof.
  cbv zeta. unfold validate_access_permissions. repeat split.
  - step H. reflexivity.
  - step H. reflexivity.
  - step H; step H0. reflexivity.
  - step H; step H0. reflexivity.
  - step H; step H0; step H1. reflexivity.
  - step H; step H0; step H1. reflexivity.
  - destruct H as (w1 & w2 & H1 & H2 & H3). step H1; step H2; step H3.
    apply String.eqb_neq in H0. rewrite H0. reflexivity.
  - destruct H as (w1 & w2 & H1 & H2 & H3). step H1; step H2; step H3.
    apply String.eqb_neq in H0. rewrite H0. reflexivity.
Qed.

(** A chain that resolves to the requester's own minutes-document: the three
    lookups and nothing else. *)
Lemma validate_access_permissions_granted (transcript_id user_id : pyval) (w : W)
    (t : Transcript.t) (v : Video.t) (m : Minutes.t) (w3 : W) :
  resolves h transcript_id w t v m w3 ->
  py_str (Minutes.user_id m) = py_str user_id ->
  run h (validate_access_permissions transcript_id user_id) w =
  Outcome (inr tt) w3
          [Event (get_transcript_by_id transcript_id) (inr (Some t));
           Event (get_video_by_id (Transcript.video_id t)) (inr (Some v));
           Event (get_minutes (Video.minutes_id v)) (inr (Some m))].
Proof.
  intros (w1 & w2 & H1 & H2 & H3) Heq. unfold validate_access_permissions.
  step H1; step H2; step H3. apply String.eqb_eq in Heq. rewrite Heq. reflexivity.
Qed.

(** The validator only looks up and logs. *)
Lemma validate_access_permissions_observes (transcript_id user_id : pyval) (w : W) :
  forallb (fun c => is_lookup c || is_log c)
          (calls (trace (run h (validate_access_permissions transcript_id user_id) w)))
  = true.
Proof. unfold validate_access_permissions. run_cases h; reflexivity. Qed.

(** Against collaborators whose lookups and logger change nothing, it leaves
    the external state as it found it. *)
Lemma validate_access_permissions_final (transcript_id user_id : pyval) (w : W) :
  read_only_lookups h ->
  final (run h (validate_access_permissions transcript_id user_id) w) = w.
Proof.
  intros Hro. apply run_read_only; [exact Hro | apply validate_access_permissions_observes].
Qed.

(** The failures that are logged: an absent transcript with the transcript
    id, an absent minutes-document with the minutes id, a foreign owner with
    both user ids. *)
Lemma validate_access_permissions_logged_failures (transcript_id user_id : pyval) (w : W) :
  let o := run h (validate_access_permissions transcript_id user_id) w in
  (forall w1,
      h (get_transcript_by_id transcript_id) w = (inr None, w1) ->
      error_logs (trace o) =
        ["文字起こしデータが見つかりません: transcript_id=" +:+ py_str transcript_id])
  /\
  (forall t v w1 w2 w3,
      h (get_transcript_by_id transcript_id) w = (inr (Some t), w1) ->
      h (get_video_by_id (Transcript.video_id t)) w1 = (inr (Some v), w2) ->
      h (get_minutes (Video.minutes_id v)) w2 = (inr None, w3) ->
      error_logs (trace o) =
        ["議事録データが見つかりません: minutes_id=" +:+ py_str (Video.minutes_id v)])
  /\
  (forall t v m w3,
      resolves h transcript_id w t v m w3 ->
      py_str (Minutes.user_id m) <> py_str user_id ->
      error_logs (trace o) =
        ["アクセス権限がありません: minutes_user_id=" +:+ py_str (Minutes.user_id m)
         +:+ ", request_user_id=" +:+ py_str user_id]).
Proof.
  cbv zeta. unfold validate_access_permissions. repeat split.
  - intros w1 H. step H. reflexivity.
  - intros t v w1 w2 w3 H H0 H1. step H; step H0; step H1. reflexivity.
  - intros t v m w3 (w1 & w2 & H1 & H2 & H3) H0. step H1; step H2; step H3.
    apply String.eqb_neq in H0. rewrite H0. reflexivity.
Qed.

(** A video that is absent is reported to the caller and to nobody else: no
    logger call is made on that path (lines 39-43). *)
Lemma validate_access_permissions_video_absent (transcript_id user_id : pyval) (w : W)
    (t : Transcript.t) (w1 w2 : W) :
  h (get_transcript_by_id transcript_id) w = (inr (Some t), w1) ->
  h (get_video_by_id (Transcript.video_id t)) w1 = (inr None, w2) ->
  run h (validate_access_permissions transcript_id user_id) w =
  Outcome (inl (HTTPException 404 "動画が見つかりません")) w2
          [Event (get_transcript_by_id transcript_id) (inr (Some t));
           Event (get_video_by_id (Transcript.video_id t)) (inr None)].
Proof.
  intros H H0. unfold validate_access_permissions. step H; step H0. reflexivity.
Qed.
End Validator.

Lemma db_handler_read_only (provider : ChatRequest -> exn + ChatCompletion) :
  read_only_lookups (db_handler provider).
Proof. intros [] d Hc; try discriminate Hc; reflexivity. Qed.

(** C8. The validator does not log every failure: for a transcript whose
    video is missing it raises the 404 without any logger call, although
    the three sibling failure paths each log their ids first. *)
Theorem validate_access_permissions_video_absent_unlogged :
  let o := run (db_handler budget_provider)
               (validate_access_permissions (PyInt 1) (PyStr "u1")) orphan_db in
  result o = inl (HTTPException 404 "動画が見つかりません") /\
  calls (trace o) = [get_transcript_by_id (PyInt 1); get_video_by_id (PyInt 7)] /\
  List.filter is_log (calls (trace o)) = [].
Proof. cbv zeta. repeat split. Qed.

(** C1, on databases: no transcript; a transcript without its video; a video
    without its minutes-document; another user's minutes-document. *)
Lemma validate_access_permissions_failures_witness :
  let validate := fun d user_id =>
    run (db_handler budget_provider)
        (validate_access_permissions (PyInt 1) (PyStr user_id)) d in
  result (validate empty_db "u1")
    = inl (HTTPException 404 "指定された文字起こしIDのデータが見つかりません") /\
  result (validate orphan_db "u1") = inl (HTTPException 404 "動画が見つかりません") /\
  result (validate unfiled_db "u1") = inl (HTTPException 404 "議事録データが見つかりません") /\
  result (validate budget_db "u2")
    = inl (HTTPException 403 "この議事録へのアクセス権限がありません").
Proof.
  cbv zeta. split; [| split; [| split]].
  - eapply (proj1 (validate_access_permissions_failures
                     (db_handler budget_provider) _ _ _)); reflexivity.
  - eapply (proj1 (proj2 (validate_access_permissions_failures
                            (db_handler budget_provider) _ _ _))); reflexivity.
  - eapply (proj1 (proj2 (proj2 (validate_access_permissions_failures
                                   (db_handler budget_provider) _ _ _)))); reflexivity.
  - eapply (proj2 (proj2 (proj2 (validate_access_permissions_failures
                                   (db_handler budget_provider) _ _ _)))).
    + exists budget_db, budget_db. repeat split.
    + discriminate.
Defined.

(** ** The summary generator *)

Lemma contains_suffix (a b : string) : contains (a +:+ b) b.
Proof.
  exists a, EmptyString. f_equal.
  induction b as [| ch b IH]; [reflexivity |].
  change (String ch b = String ch (b +:+ EmptyString)). f_equal. exact IH.
Qed.

Section Generator.
Context {W : Type} (h : handler W).

(** How a run of the generator goes, by what the completion call replies. *)
Lemma run_generate_summary_content (environ : gmap string string)
    (transcript_content : string) (w : W) :
  let c := chat_completions_create (completion_request environ transcript_content) in
  let failure := fun (e : exn) =>
    Outcome (inl (HTTPException 500 (error_prefix +:+ str_exn e)))
            (snd (h (logger_error (error_prefix +:+ str_exn e)) (snd (h c w))))
            [Event c (fst (h c w)); Event (logger_error (error_prefix +:+ str_exn e)) tt] in
  run h (generate_summary_content environ transcript_content) w =
  match fst (h c w) with
  | inl e => failure e
  | inr response =>
      match choices response with
      | [] => failure IndexError
      | choice :: _ => Outcome (inr (message_content choice)) (snd (h c w)) [Event c (fst (h c w))]
      end
  end.
Proof.
  cbv zeta. unfold generate_summary_content. simpl.
  destruct (h (chat_completions_create _) w) as [[e | [[| choice rest]]] w1]; simpl.
  - destruct (h (logger_error _) w1) as [[] w2]; reflexivity.
  - destruct (h (logger_error _) w1) as [[] w2]; reflexivity.
  - reflexivity.
Qed.

(** C6. For every transcript text the generator makes exactly one completion
    call; its request carries the deployment's model name, the fixed system
    instruction, a user message wrapping the transcript text, temperature
    0.7 and at most 1000 output tokens; and when the call returns, the
    result is the text of the first choice. *)
Theorem generate_summary_content_request (environ : gmap string string)
    (transcript_content : string) (w : W) :
  let request := completion_request environ transcript_content in
  let o := run h (generate_summary_content environ transcript_content) w in
  model request = os_getenv environ "AZURE_OPENAI_DEPLOYMENT_CHAT" "gpt-4.1" /\
  messages request =
    [ mkMessage "system" system_instruction;
      mkMessage "user" ("以下の会議の文字起こしを要約してください："
                        +:+ nl +:+ nl +:+ transcript_content) ] /\
  temperature request = 7 # 10 /\
  max_tokens request = 1000 /\
  List.filter is_completion (calls (trace o)) = [chat_completions_create request] /\
  (forall response choice rest,
      fst (h (chat_completions_create request) w) = inr response ->
      choices response = choice :: rest ->
      result o = inr (message_content choice)).
Proof.
  cbv zeta. rewrite run_generate_summary_content. cbv zeta.
  repeat split.
  - destruct (fst (h _ w)) as [e | [[| choice rest]]]; reflexivity.
  - intros response choice rest Hr Hc. rewrite Hr, Hc. reflexivity.
Qed.

(** When the completion call raises, the generator raises an
    [HTTPException] with status 500 whose detail ends with the message of
    what was raised; it has made that one completion call, logged the
    error, and called nothing else. *)
Lemma generate_summary_content_failure (environ : gmap string string)
    (transcript_content : string) (w : W) (e : exn) :
  let request := completion_request environ transcript_content in
  let o := run h (generate_summary_content environ transcript_content) w in
  fst (h (chat_completions_create request) w) = inl e ->
  result o = inl (HTTPException 500 (error_prefix +:+ str_exn e)) /\
  completion_failures (trace o) = [e] /\
  calls (trace o) =
    [chat_completions_create request; logger_error (error_prefix +:+ str_exn e)].
Proof.
  cbv zeta. intros He. rewrite run_generate_summary_content. cbv zeta.
  rewrite He. repeat split.
Qed.

(** The generator never writes. *)
Lemma generate_summary_content_writes_nothing (environ : gmap string string)
    (transcript_content : string) (w : W) :
  List.filter is_write
         (calls (trace (run h (generate_summary_content environ transcript_content) w)))
  = [].
Proof.
  rewrite run_generate_summary_content. cbv zeta.
  destruct (fst (h _ w)) as [e | [[| choice rest]]]; reflexivity.
Qed.
End Generator.

(** C6, against the stubbed provider. *)
Lemma generate_summary_content_request_witness :
  result (run (db_handler budget_provider)
              (generate_summary_content ∅ "Meeting about budget.") budget_db)
  = inr budget_summary.
Proof.
  destruct (generate_summary_content_request (db_handler budget_provider)
              ∅ "Meeting about budget." budget_db) as (_ & _ & _ & _ & _ & Hfirst).
  apply (Hfirst (mkChatCompletion [mkChoice budget_summary]) (mkChoice budget_summary) []);
    reflexivity.
Defined.

(** ** The orchestrator *)

Lemma observed_calls_no_completion (cs : list call) :
  forallb (fun c => is_lookup c || is_log c) cs = true ->
  List.filter is_completion cs = [] /\ List.filter is_write cs = [].
Proof.
  induction cs as [| c cs IH]; simpl; [split; reflexivity |].
  intros [Hc Hcs]%andb_prop. destruct (IH Hcs) as [IH1 IH2].
  destruct c; try discriminate Hc; simpl; rewrite ?IH1, ?IH2; split; reflexivity.
Qed.

Lemma calls_app (tr1 tr2 : list event) : calls (tr1 ++ tr2) = calls tr1 ++ calls tr2.
Proof. apply map_app. Qed.

Lemma observed_calls_no_failure (tr : list event) :
  List.filter is_completion (calls tr) = [] -> completion_failures tr = [].
Proof.
  induction tr as [| [c r] tr IH]; [reflexivity |].
  destruct c; simpl; try discriminate; exact IH.
Qed.

Lemma completion_failures_app (tr1 tr2 : list event) :
  completion_failures (tr1 ++ tr2) = completion_failures tr1 ++ completion_failures tr2.
Proof. apply omap_app. Qed.

Section Orchestrator.
Context {W : Type} (h : handler W).

Local Arguments validate_access_permissions : simpl never.
Local Arguments summarize_and_store : simpl never.

Lemma run_logger_info (msg : string) (w : W) :
  run h (logger.info msg) w =
  Outcome (inr tt) (snd (h (logger_info msg) w)) [Event (logger_info msg) tt].
Proof. simpl. destruct (h (logger_info msg) w) as [[] w0]; reflexivity. Qed.

(** The [try] block: the request is logged, then validated, and only a
    validation that returns lets the remaining steps run. *)
Lemma run_process_summary_generation_try (environ : gmap string string)
    (transcript_id user_id : pyval) (w : W) :
  let entry := Event (logger_info (request_log transcript_id user_id)) tt in
  let ov := run h (validate_access_permissions transcript_id user_id)
                (snd (h (logger_info (request_log transcript_id user_id)) w)) in
  run h (process_summary_generation_try environ transcript_id user_id) w =
  match result ov with
  | inl e => Outcome (inl e) (final ov) (entry :: trace ov)
  | inr _ =>
      let o := run h (summarize_and_store environ transcript_id) (final ov) in
      Outcome (result o) (final o) (entry :: trace ov ++ trace o)
  end.
Proof.
  cbv zeta. unfold process_summary_generation_try.
  rewrite run_bind, run_logger_info. cbn [result final trace].
  rewrite run_bind.
  destruct (run h (validate_access_permissions transcript_id user_id) _)
    as [[e | []] fin tr]; reflexivity.
Qed.

(** The [except] clauses: an [HTTPException] leaves as it came, anything
    else is logged and replaced by a 500 that carries its message. *)
Lemma run_process_summary_generation (environ : gmap string string)
    (transcript_id user_id : pyval) (w : W) :
  let o_try := run h (process_summary_generation_try environ transcript_id user_id) w in
  run h (process_summary_generation environ transcript_id user_id) w =
  match result o_try with
  | inl (Exception msg) =>
      Outcome (inl (HTTPException 500 (error_prefix +:+ msg)))
              (snd (h (logger_error (error_prefix +:+ msg)) (final o_try)))
              (trace o_try ++ [Event (logger_error (error_prefix +:+ msg)) tt])
  | _ => o_try
  end.
Proof.
  cbv zeta. unfold process_summary_generation. rewrite run_try_except.
  destruct (run h (process_summary_generation_try _ _ _) w) as [[[c d | msg] | s] fin tr];
    simpl.
  - rewrite app_nil_r. reflexivity.
  - destruct (h (logger_error _) fin) as [[] w1]; reflexivity.
  - reflexivity.
Qed.

Ltac unfold_steps :=
  unfold summarize_and_store, generate_summary_content, content_or_text.

(** The steps after validation, when the completion call raises: the 500 of
    the generator, one completion call, no write. *)
Lemma summarize_and_store_provider_failure (environ : gmap string string)
    (transcript_id : pyval) (w : W) (e : exn) :
  let o := run h (summarize_and_store environ transcript_id) w in
  In e (completion_failures (trace o)) ->
  result o = inl (HTTPException 500 (error_prefix +:+ str_exn e)) /\
  length (List.filter is_completion (calls (trace o))) = 1%nat /\
  List.filter is_write (calls (trace o)) = [].
Proof.
  cbv zeta. unfold_steps. run_cases h; intros Hin;
    repeat (destruct Hin as [Hin | Hin]; [subst |]); try contradiction;
    repeat split.
Qed.

(** The steps after validation write at most once, the summary of the
    transcript asked for. *)
Lemma summarize_and_store_writes (environ : gmap string string)
    (transcript_id : pyval) (w : W) :
  let o := run h (summarize_and_store environ transcript_id) w in
  List.filter is_write (calls (trace o)) = [] \/
  exists summary_content : string,
    List.filter is_write (calls (trace o)) = [create_summary transcript_id summary_content].
Proof.
  cbv zeta. unfold_steps. run_cases h; first [left; reflexivity | right; eexists; reflexivity].
Qed.

(** The steps after validation, when they return: the transcript was found,
    the completion call returned a first choice, its text went to
    [create_summary] with the transcript id, and the text of the record that
    came back is the result. *)
Lemma summarize_and_store_success (environ : gmap string string)
    (transcript_id : pyval) (w : W) (s : string) :
  let o := run h (summarize_and_store environ transcript_id) w in
  result o = inr s ->
  exists (t : Transcript.t) (transcript_content : string)
         (response : ChatCompletion) (choice : Choice) (rest : list Choice)
         (summary : Summary.t),
    content_or_text (Some t) = Ret transcript_content /\
    choices response = choice :: rest /\
    trace o =
      [ Event (get_transcript_by_id transcript_id) (inr (Some t));
        Event (chat_completions_create (completion_request environ transcript_content))
              (inr response);
        Event (logger_info "要約の生成が完了しました") tt;
        Event (create_summary transcript_id (message_content choice)) (inr summary);
        Event (logger_info (stored_log summary)) tt ] /\
    s = Summary.content summary /\
    (stores_and_returns h -> s = message_content choice).
Proof.
  cbv zeta. unfold_steps. run_cases h; intros Hs; try discriminate Hs;
    injection Hs as <-.
  all: match goal with
       | E : h (create_summary ?tid ?text) ?w' = (inr ?sm, _),
         E1 : h (get_transcript_by_id _) _ = (inr (Some ?t), _),
         E2 : h (chat_completions_create (completion_request _ ?tc)) _ = (inr ?resp, _),
         Hc : choices ?resp = ?c :: ?cs |- _ =>
           exists t, tc, resp, c, cs, sm;
           split; [| split; [exact Hc | split; [reflexivity | split; [reflexivity |]]]];
           [ simpl;
             repeat match goal with
                    | Hq : Transcript.content _ = _ |- _ => rewrite Hq; clear Hq
                    | Hq : Transcript.text _ = _ |- _ => rewrite Hq; clear Hq
                    end; reflexivity
           | intros Hecho; destruct (Hecho tid text w') as (sm' & Hsm & <-);
             rewrite E in Hsm; injection Hsm as <-; reflexivity ]
       end.
Qed.

(** C3. When validation fails with an [HTTPException] (a 404 or the 403),
    the orchestrator raises that exception, and on the way it has only
    logged the request and made the validator's calls: no completion call,
    no write, and the external state is the one validation left, which is
    the initial one whenever lookups and logging change nothing. *)
Theorem process_summary_generation_aborts_in_validation (environ : gmap string string)
    (transcript_id user_id : pyval) (w : W) (status_code : Z) (detail : string) :
  let ov := run h (validate_access_permissions transcript_id user_id)
                (snd (h (logger_info (request_log transcript_id user_id)) w)) in
  let o := run h (process_summary_generation environ transcript_id user_id) w in
  result ov = inl (HTTPException status_code detail) ->
  result o = inl (HTTPException status_code detail) /\
  trace o = Event (logger_info (request_log transcript_id user_id)) tt :: trace ov /\
  List.filter is_completion (calls (trace o)) = [] /\
  List.filter is_write (calls (trace o)) = [] /\
  final o = final ov /\
  (read_only_lookups h -> final o = w).
Proof.
  cbv zeta. intros Hv.
  rewrite run_process_summary_generation. cbv zeta.
  rewrite run_process_summary_generation_try. cbv zeta.
  pose proof (validate_access_permissions_observes h transcript_id user_id
                (snd (h (logger_info (request_log transcript_id user_id)) w))) as Hobs.
  destruct (observed_calls_no_completion _ Hobs) as [Hc Hw].
  pose proof (validate_access_permissions_final h transcript_id user_id
                (snd (h (logger_info (request_log transcript_id user_id)) w))) as Hfin.
  destruct (run h (validate_access_permissions transcript_id user_id) _) as [res fin tr].
  cbn [result final trace] in *. subst res. cbn [result final trace].
  repeat split; try assumption.
  intros Hro. rewrite (Hfin Hro). apply Hro. reflexivity.
Qed.

(** C10. When validation has returned and the transcript is gone at the
    second lookup, the orchestrator raises an [HTTPException] with status
    500, not the 404 of the validator, after logging the [AttributeError];
    it makes no completion call and no write. *)
Theorem process_summary_generation_vanished_transcript (environ : gmap string string)
    (transcript_id user_id : pyval) (w w2 : W) :
  let ov := run h (validate_access_permissions transcript_id user_id)
                (snd (h (logger_info (request_log transcript_id user_id)) w)) in
  let o := run h (process_summary_generation environ transcript_id user_id) w in
  let detail := error_prefix +:+ "'NoneType' object has no attribute 'text'" in
  result ov = inr tt ->
  h (get_transcript_by_id transcript_id) (final ov) = (inr None, w2) ->
  result o = inl (HTTPException 500 detail) /\
  result o <> inl (HTTPException 404 "指定された文字起こしIDのデータが見つかりません") /\
  trace o = Event (logger_info (request_log transcript_id user_id)) tt :: trace ov
            ++ [Event (get_transcript_by_id transcript_id) (inr None);
                Event (logger_error detail) tt] /\
  List.filter is_completion (calls (trace o)) = [] /\
  List.filter is_write (calls (trace o)) = [].
Proof.
  cbv zeta. intros Hv Hgone.
  rewrite run_process_summary_generation. cbv zeta.
  rewrite run_process_summary_generation_try. cbv zeta.
  pose proof (validate_access_permissions_observes h transcript_id user_id
                (snd (h (logger_info (request_log transcript_id user_id)) w))) as Hobs.
  destruct (observed_calls_no_completion _ Hobs) as [Hc Hw].
  destruct (run h (validate_access_permissions transcript_id user_id) _) as [res fin tr].
  cbn [result final trace] in *. subst res.
  unfold summarize_and_store. simpl. rewrite Hgone. simpl.
  repeat split.
  - discriminate.
  - rewrite <- app_assoc. reflexivity.
  - rewrite !calls_app, !List.filter_app, Hc. reflexivity.
  - rewrite !calls_app, !List.filter_app, Hw. reflexivity.
Qed.
(** An exception of the completion call, seen from the orchestrator: the
    generator's 500 leaves unchanged, after exactly one completion call and
    without any write. *)
Lemma process_summary_generation_provider_failure (environ : gmap string string)
    (transcript_id user_id : pyval) (w : W) (e : exn) :
  let o := run h (process_summary_generation environ transcript_id user_id) w in
  In e (completion_failures (trace o)) ->
  result o = inl (HTTPException 500 (error_prefix +:+ str_exn e)) /\
  length (List.filter is_completion (calls (trace o))) = 1%nat /\
  List.filter is_write (calls (trace o)) = [].
Proof.
  cbv zeta.
  rewrite run_process_summary_generation. cbv zeta.
  rewrite run_process_summary_generation_try. cbv zeta.
  pose proof (validate_access_permissions_observes h transcript_id user_id
                (snd (h (logger_info (request_log transcript_id user_id)) w))) as Hobs.
  destruct (observed_calls_no_completion _ Hobs) as [Hc Hw].
  pose proof (observed_calls_no_failure _ Hc) as Hf.
  pose proof (summarize_and_store_provider_failure environ transcript_id) as Hs.
  cbv zeta in Hs.
  destruct (run h (validate_access_permissions transcript_id user_id) _)
    as [resv finv trv].
  cbn [result final trace] in *. clear Hobs.
  destruct resv as [[c d | msg] | []]; cbn [result final trace].
  - simpl. rewrite Hf. intros [].
  - simpl. rewrite completion_failures_app, Hf. intros [].
  - specialize (Hs finv e).
    destruct (run h (summarize_and_store environ transcript_id) finv)
      as [ress fins trs].
    cbn [result final trace] in *.
    destruct ress as [[c d | msg] | s]; cbn [result final trace]; simpl;
      rewrite ?completion_failures_app, ?Hf, ?app_nil_r; simpl; intros He.
    + destruct (Hs He) as (Hr & Hn & Hwr). split; [exact Hr |].
      rewrite !calls_app, !List.filter_app, Hc, Hw, Hwr. split; [exact Hn | reflexivity].
    + destruct (Hs He) as (Hr & _). discriminate Hr.
    + destruct (Hs He) as (Hr & _). discriminate Hr.
Qed.

(** The steps after validation begin with the second lookup of the
    transcript. *)
Lemma summarize_and_store_refetches (environ : gmap string string)
    (transcript_id : pyval) (w : W) :
  exists rest : list event,
    trace (run h (summarize_and_store environ transcript_id) w) =
    Event (get_transcript_by_id transcript_id)
          (fst (h (get_transcript_by_id transcript_id) w)) :: rest.
Proof. unfold summarize_and_store. simpl. eexists. reflexivity. Qed.

(** C2. For a chain transcript, video, minutes-document that resolves, the
    validator returns (raises nothing) exactly when [str] of the owner's id
    equals [str] of the requester's id; and then the orchestrator, having
    logged the request and made the three lookups, goes on to fetch the
    transcript again. *)
Theorem validate_access_permissions_grants_iff (transcript_id user_id : pyval) (w : W)
    (t : Transcript.t) (v : Video.t) (m : Minutes.t) (w3 : W) :
  resolves h transcript_id w t v m w3 ->
  (result (run h (validate_access_permissions transcript_id user_id) w) = inr tt
   <-> py_str (Minutes.user_id m) = py_str user_id)
  /\
  (py_str (Minutes.user_id m) = py_str user_id ->
   forall (environ : gmap string string) (w_request : W),
     snd (h (logger_info (request_log transcript_id user_id)) w_request) = w ->
     exists rest : list event,
       trace (run h (process_summary_generation environ transcript_id user_id) w_request) =
       [ Event (logger_info (request_log transcript_id user_id)) tt;
         Event (get_transcript_by_id transcript_id) (inr (Some t));
         Event (get_video_by_id (Transcript.video_id t)) (inr (Some v));
         Event (get_minutes (Video.minutes_id v)) (inr (Some m));
         Event (get_transcript_by_id transcript_id)
               (fst (h (get_transcript_by_id transcript_id) w3)) ] ++ rest).
Proof.
  intros Hres. split; [split |].
  - destruct Hres as (w1 & w2 & H1 & H2 & H3). unfold validate_access_permissions.
    simpl. rewrite H1. simpl. rewrite H2. simpl. rewrite H3. simpl.
    destruct (String.eqb _ _) eqn:Heq; simpl.
    + intros _. apply String.eqb_eq. exact Heq.
    + discriminate.
  - intros Heq. rewrite (validate_access_permissions_granted h _ _ _ _ _ _ _ Hres Heq).
    reflexivity.
  - intros Heq environ w_request Hw.
    rewrite run_process_summary_generation. cbv zeta.
    rewrite run_process_summary_generation_try. cbv zeta. rewrite Hw.
    rewrite (validate_access_permissions_granted h _ _ _ _ _ _ _ Hres Heq).
    cbn [result final trace].
    destruct (summarize_and_store_refetches environ transcript_id w3) as [rest Hrest].
    destruct (run h (summarize_and_store environ transcript_id) w3) as [ress fins trs].
    cbn [result final trace] in *. subst trs.
    destruct ress as [[c d | msg] | s]; cbn [result final trace]; eexists; reflexivity.
Qed.

(** C5. An [HTTPException] raised in the [try] block, in particular one
    raised by validation or by the generator, leaves the orchestrator as it
    is, with nothing done in between; any other exception is logged and
    replaced by an [HTTPException] with status 500 whose detail ends with
    its message.  The orchestrator raises nothing but [HTTPException]s. *)
Theorem process_summary_generation_propagation (environ : gmap string string)
    (transcript_id user_id : pyval) (w : W) :
  let o_try := run h (process_summary_generation_try environ transcript_id user_id) w in
  let ov := run h (validate_access_permissions transcript_id user_id)
                (snd (h (logger_info (request_log transcript_id user_id)) w)) in
  let o := run h (process_summary_generation environ transcript_id user_id) w in
  (forall status_code detail,
      result o_try = inl (HTTPException status_code detail) -> o = o_try)
  /\
  (forall msg,
      result o_try = inl (Exception msg) ->
      result o = inl (HTTPException 500 (error_prefix +:+ msg)) /\
      contains (error_prefix +:+ msg) msg /\
      trace o = trace o_try ++ [Event (logger_error (error_prefix +:+ msg)) tt])
  /\
  (forall status_code detail,
      result ov = inl (HTTPException status_code detail) ->
      result o = inl (HTTPException status_code detail))
  /\
  (forall e,
      In e (completion_failures (trace o)) ->
      result o = inl (HTTPException 500 (error_prefix +:+ str_exn e)))
  /\
  (forall msg, result o <> inl (Exception msg)).
Proof.
  cbv zeta. repeat split.
  - intros status_code detail Ht. rewrite run_process_summary_generation. cbv zeta.
    rewrite Ht. reflexivity.
  - rewrite run_process_summary_generation. cbv zeta. rewrite H. reflexivity.
  - apply contains_suffix.
  - rewrite run_process_summary_generation. cbv zeta. rewrite H. reflexivity.
  - intros status_code detail Hv. rewrite run_process_summary_generation. cbv zeta.
    rewrite run_process_summary_generation_try. cbv zeta. rewrite Hv. reflexivity.
  - intros e He. apply process_summary_generation_provider_failure. exact He.
  - intros msg. rewrite run_process_summary_generation. cbv zeta.
    destruct (run h (process_summary_generation_try _ _ _) w) as [[[c d | msg'] | s] fin tr];
      discriminate.
Qed.

(** A run of the orchestrator that returns: the text of the first choice
    went to [create_summary] with the transcript id, that is the only
    write, and the result is the text of the record [create_summary]
    returned. *)
Lemma process_summary_generation_returns (environ : gmap string string)
    (transcript_id user_id : pyval) (w : W) (s : string) :
  let o := run h (process_summary_generation environ transcript_id user_id) w in
  result o = inr s ->
  exists (before : list event) (transcript_content : string)
         (response : ChatCompletion) (choice : Choice) (rest : list Choice)
         (summary : Summary.t),
    choices response = choice :: rest /\
    trace o = before ++
      [ Event (chat_completions_create (completion_request environ transcript_content))
              (inr response);
        Event (logger_info "要約の生成が完了しました") tt;
        Event (create_summary transcript_id (message_content choice)) (inr summary);
        Event (logger_info (stored_log summary)) tt ] /\
    List.filter is_write (calls (trace o)) =
      [create_summary transcript_id (message_content choice)] /\
    s = Summary.content summary /\
    (stores_and_returns h -> s = message_content choice).
Proof.
  cbv zeta.
  rewrite run_process_summary_generation. cbv zeta.
  rewrite run_process_summary_generation_try. cbv zeta.
  pose proof (validate_access_permissions_observes h transcript_id user_id
                (snd (h (logger_info (request_log transcript_id user_id)) w))) as Hobs.
  destruct (observed_calls_no_completion _ Hobs) as [_ Hw].
  pose proof (summarize_and_store_success environ transcript_id) as Hs.
  cbv zeta in Hs.
  destruct (run h (validate_access_permissions transcript_id user_id) _)
    as [resv finv trv].
  cbn [result final trace] in *. clear Hobs.
  destruct resv as [[c d | msg] | []]; cbn [result final trace]; try discriminate.
  specialize (Hs finv s).
  destruct (run h (summarize_and_store environ transcript_id) finv) as [ress fins trs].
  cbn [result final trace] in *.
  destruct ress as [[c d | msg] | s']; cbn [result final trace]; try discriminate.
  intros Hr.
  destruct (Hs Hr) as (t & tc & response & choice & rest & summary
                       & _ & Hch & Htr & Hsum & Hecho).
  subst trs.
  exists (Event (logger_info (request_log transcript_id user_id)) tt
          :: trv ++ [Event (get_transcript_by_id transcript_id) (inr (Some t))]),
    tc, response, choice, rest, summary.
  repeat split; try assumption.
  - cbn [app]. rewrite <- app_assoc. reflexivity.
  - change (calls (?ev :: ?tr)) with (ev_call ev :: calls tr).
    cbn [List.filter ev_call is_write]. rewrite calls_app, List.filter_app, Hw.
    reflexivity.
Qed.

(** The orchestrator writes at most once: the summary of the transcript
    asked for. *)
Lemma process_summary_generation_writes (environ : gmap string string)
    (transcript_id user_id : pyval) (w : W) :
  let o := run h (process_summary_generation environ transcript_id user_id) w in
  List.filter is_write (calls (trace o)) = [] \/
  exists summary_content : string,
    List.filter is_write (calls (trace o)) = [create_summary transcript_id summary_content].
Proof.
  cbv zeta.
  rewrite run_process_summary_generation. cbv zeta.
  rewrite run_process_summary_generation_try. cbv zeta.
  pose proof (validate_access_permissions_observes h transcript_id user_id
                (snd (h (logger_info (request_log transcript_id user_id)) w))) as Hobs.
  destruct (observed_calls_no_completion _ Hobs) as [_ Hw].
  pose proof (summarize_and_store_writes environ transcript_id) as Hs.
  cbv zeta in Hs.
  destruct (run h (validate_access_permissions transcript_id user_id) _)
    as [resv finv trv].
  cbn [result final trace] in *. clear Hobs.
  destruct resv as [[c d | msg] | []]; cbn [result final trace].
  - left. simpl. exact Hw.
  - left. simpl. rewrite calls_app, List.filter_app, Hw. reflexivity.
  - specialize (Hs finv).
    destruct (run h (summarize_and_store environ transcript_id) finv) as [ress fins trs].
    cbn [result final trace] in *.
    destruct ress as [[c d | msg] | s']; cbn [result final trace]; simpl;
      rewrite ?calls_app, ?List.filter_app, ?Hw, ?app_nil_r; simpl; exact Hs.
Qed.
End Orchestrator.

(** ** Over a database *)

(** Whatever is run against a database, transcripts, videos and
    minutes-documents stay as they are, and so does the summary of every
    transcript for which [create_summary] was not called. *)
Lemma run_db_frame {A : Type} (provider : ChatRequest -> exn + ChatCompletion)
    (p : prog A) (d : Db) :
  let o := run (db_handler provider) p d in
  transcripts (final o) = transcripts d /\
  videos (final o) = videos d /\
  minutes_documents (final o) = minutes_documents d /\
  forall k : pyval,
    (forall text, ~ In (create_summary k text) (calls (trace o))) ->
    summaries (final o) !! k = summaries d !! k.
Proof.
  cbv zeta. revert d. induction p as [a | e | c k IH]; intros d; simpl.
  - repeat split.
  - repeat split.
  - specialize (IH (fst (db_handler provider c d)) (snd (db_handler provider c d))).
    destruct IH as (Ht & Hv & Hm & Hs).
    rewrite Ht, Hv, Hm.
    assert (Hstep : transcripts (snd (db_handler provider c d)) = transcripts d /\
                    videos (snd (db_handler provider c d)) = videos d /\
                    minutes_documents (snd (db_handler provider c d)) = minutes_documents d /\
                    forall key, (forall text, c <> create_summary key text) ->
                      summaries (snd (db_handler provider c d)) !! key = summaries d !! key).
    { destruct c; simpl; repeat split.
      all: unfold upsert_summary; destruct (summaries d !! transcript_id); simpl;
        try reflexivity.
      all: intros key Hkey; apply lookup_insert_ne; intros ->; eapply Hkey; reflexivity. }
    destruct Hstep as (Ht' & Hv' & Hm' & Hs').
    repeat split; try assumption.
    intros key Hkey. rewrite Hs.
    + apply Hs'. intros text ->. apply (Hkey text). left. reflexivity.
    + intros text Hin. apply (Hkey text). right. exact Hin.
Qed.

(** C9. The validator only looks up and logs, so a database is the same
    after it as before; the generator makes no write; the orchestrator's
    only write is its one [create_summary] call for the transcript asked
    for, so that over a database transcripts, videos and minutes-documents
    are never changed and no other transcript's summary is. *)
Theorem validate_access_permissions_read_only :
  (forall (W : Type) (h : handler W) (transcript_id user_id : pyval) (w : W),
      forallb (fun c => is_lookup c || is_log c)
              (calls (trace (run h (validate_access_permissions transcript_id user_id) w)))
      = true)
  /\
  (forall (provider : ChatRequest -> exn + ChatCompletion) (d : Db)
          (transcript_id user_id : pyval),
      final (run (db_handler provider)
                 (validate_access_permissions transcript_id user_id) d) = d)
  /\
  (forall (W : Type) (h : handler W) (environ : gmap string string)
          (transcript_content : string) (w : W),
      List.filter is_write
        (calls (trace (run h (generate_summary_content environ transcript_content) w)))
      = [])
  /\
  (forall (W : Type) (h : handler W) (environ : gmap string string)
          (transcript_id user_id : pyval) (w : W),
      let o := run h (process_summary_generation environ transcript_id user_id) w in
      List.filter is_write (calls (trace o)) = [] \/
      exists summary_content : string,
        List.filter is_write (calls (trace o))
        = [create_summary transcript_id summary_content])
  /\
  (forall (provider : ChatRequest -> exn + ChatCompletion) (d : Db)
          (environ : gmap string string) (transcript_id user_id : pyval),
      let d' := final (run (db_handler provider)
                           (process_summary_generation environ transcript_id user_id) d) in
      transcripts d' = transcripts d /\
      videos d' = videos d /\
      minutes_documents d' = minutes_documents d /\
      forall k : pyval, k <> transcript_id -> summaries d' !! k = summaries d !! k).
Proof.
  split; [| split; [| split; [| split]]].
  - intros W h. apply validate_access_permissions_observes.
  - intros provider d transcript_id user_id.
    apply validate_access_permissions_final, db_handler_read_only.
  - intros W h. apply generate_summary_content_writes_nothing.
  - intros W h. apply process_summary_generation_writes.
  - intros provider d environ transcript_id user_id. cbv zeta.
    destruct (run_db_frame provider
                (process_summary_generation environ transcript_id user_id) d)
      as (Ht & Hv & Hm & Hs).
    repeat split; try assumption.
    intros k Hk. apply Hs. intros text Hin.
    assert (Hin' : In (create_summary k text)
                      (List.filter is_write
                         (calls (trace (run (db_handler provider)
                                          (process_summary_generation environ
                                             transcript_id user_id) d))))).
    { apply filter_In. split; [exact Hin | reflexivity]. }
    destruct (process_summary_generation_writes (db_handler provider) environ
                transcript_id user_id d) as [Hnone | [text' Hone]].
    + rewrite Hnone in Hin'. destruct Hin'.
    + rewrite Hone in Hin'. destruct Hin' as [Heq | []].
      injection Heq as -> _. apply Hk. reflexivity.
Qed.

(** C7. A run of the orchestrator that returns has passed the text of the
    first completion choice, with the transcript id, to [create_summary],
    and returns the text of the record that came back, which is that text
    when [create_summary] stores and returns what it is given.  On the
    budget meeting, with the provider stubbed, the summary is stored and
    returned as it was generated. *)
Theorem process_summary_generation_success :
  (forall (W : Type) (h : handler W) (environ : gmap string string)
          (transcript_id user_id : pyval) (w : W) (s : string),
      let o := run h (process_summary_generation environ transcript_id user_id) w in
      result o = inr s ->
      exists (before : list event) (transcript_content : string)
             (response : ChatCompletion) (choice : Choice) (rest : list Choice)
             (summary : Summary.t),
        choices response = choice :: rest /\
        trace o = before ++
          [ Event (chat_completions_create
                     (completion_request environ transcript_content)) (inr response);
            Event (logger_info "要約の生成が完了しました") tt;
            Event (create_summary transcript_id (message_content choice)) (inr summary);
            Event (logger_info (stored_log summary)) tt ] /\
        List.filter is_write (calls (trace o)) =
          [create_summary transcript_id (message_content choice)] /\
        s = Summary.content summary /\
        (stores_and_returns h -> s = message_content choice))
  /\
  (let o := run (db_handler budget_provider)
                (process_summary_generation ∅ (PyInt 1) (PyStr "u1")) budget_db in
   Transcript.content <$> transcripts budget_db !! PyInt 1
     = Some (Some "Meeting about budget.") /\
   budget_summary = "### Summary" +:+ nl +:+ "Budget discussed." /\
   result o = inr budget_summary /\
   Summary.content <$> summaries (final o) !! PyInt 1 = Some budget_summary).
Proof.
  split.
  - intros W h. apply process_summary_generation_returns.
  - cbv zeta. repeat split.
Qed.

(** C4. When the completion call raises [e], the generator raises an
    [HTTPException] with status 500 whose detail contains [str(e)], having
    made that one completion call and logged the error; the orchestrator
    raises the same exception, has made exactly one completion call, and
    has written nothing. *)
Theorem generate_summary_content_provider_failure (W : Type) (h : handler W)
    (environ : gmap string string) (e : exn) :
  (forall (transcript_content : string) (w : W),
      let request := completion_request environ transcript_content in
      let o := run h (generate_summary_content environ transcript_content) w in
      fst (h (chat_completions_create request) w) = inl e ->
      result o = inl (HTTPException 500 (error_prefix +:+ str_exn e)) /\
      contains (error_prefix +:+ str_exn e) (str_exn e) /\
      calls (trace o) =
        [chat_completions_create request; logger_error (error_prefix +:+ str_exn e)])
  /\
  (forall (transcript_id user_id : pyval) (w : W),
      let o := run h (process_summary_generation environ transcript_id user_id) w in
      In e (completion_failures (trace o)) ->
      result o = inl (HTTPException 500 (error_prefix +:+ str_exn e)) /\
      length (List.filter is_completion (calls (trace o))) = 1%nat /\
      List.filter is_write (calls (trace o)) = []).
Proof.
  split.
  - intros transcript_content w request o He.
    destruct (generate_summary_content_failure h environ transcript_content w e He)
      as (Hr & _ & Hc).
    split; [exact Hr | split; [apply contains_suffix | exact Hc]].
  - intros transcript_id user_id w.
    apply process_summary_generation_provider_failure.
Qed.

(** C4, against a provider that times out. *)
Lemma generate_summary_content_provider_failure_witness :
  result (run (db_handler failing_provider)
              (generate_summary_content ∅ "Meeting about budget.") budget_db)
    = inl (HTTPException 500 (error_prefix +:+ "Request timed out.")) /\
  result (run (db_handler failing_provider)
              (process_summary_generation ∅ (PyInt 1) (PyStr "u1")) budget_db)
    = inl (HTTPException 500 (error_prefix +:+ "Request timed out.")).
Proof.
  destruct (generate_summary_content_provider_failure Db (db_handler failing_provider)
              ∅ (Exception "Request timed out.")) as [Hgen Horch].
  split.
  - apply (Hgen "Meeting about budget." budget_db). reflexivity.
  - apply (Horch (PyInt 1) (PyStr "u1") budget_db). left. reflexivity.
Defined.

(** C2, for the owner of the budget meeting. *)
Lemma validate_access_permissions_grants_iff_witness :
  result (run (db_handler budget_provider)
              (validate_access_permissions (PyInt 1) (PyStr "u1")) budget_db) = inr tt.
Proof.
  apply (proj1 (validate_access_permissions_grants_iff (db_handler budget_provider)
                  (PyInt 1) (PyStr "u1") budget_db
                  (Transcript.mk (PyInt 7) (Some "Meeting about budget.") None)
                  (Video.mk (PyInt 3)) (Minutes.mk (PyStr "u1")) budget_db
                  ltac:(exists budget_db, budget_db; repeat split))).
  reflexivity.
Defined.

(** C3, for a user who does not own the budget meeting. *)
Lemma process_summary_generation_aborts_in_validation_witness :
  let o := run (db_handler budget_provider)
               (process_summary_generation ∅ (PyInt 1) (PyStr "u2")) budget_db in
  result o = inl (HTTPException 403 "この議事録へのアクセス権限がありません") /\
  final o = budget_db.
Proof.
  cbv zeta.
  destruct (process_summary_generation_aborts_in_validation (db_handler budget_provider)
              ∅ (PyInt 1) (PyStr "u2") budget_db 403
              "この議事録へのアクセス権限がありません" eq_refl)
    as (Hr & _ & _ & _ & _ & Hfin).
  split; [exact Hr | apply Hfin, db_handler_read_only].
Defined.

(** C5, for a foreign user (the 403 passes) and for a transcript that
    vanishes (the [AttributeError] becomes a 500). *)
Lemma process_summary_generation_propagation_witness :
  result (run (db_handler budget_provider)
              (process_summary_generation ∅ (PyInt 1) (PyStr "u2")) budget_db)
    = inl (HTTPException 403 "この議事録へのアクセス権限がありません") /\
  result (run vanishing_transcript
              (process_summary_generation ∅ (PyInt 1) (PyStr "u1")) 0%nat)
    = inl (HTTPException 500
             (error_prefix +:+ "'NoneType' object has no attribute 'text'")).
Proof.
  split.
  - destruct (process_summary_generation_propagation (db_handler budget_provider)
                ∅ (PyInt 1) (PyStr "u2") budget_db) as (_ & _ & Hvalidation & _).
    apply Hvalidation. reflexivity.
  - destruct (process_summary_generation_propagation vanishing_transcript
                ∅ (PyInt 1) (PyStr "u1") 0%nat) as (_ & Hother & _).
    apply (Hother "'NoneType' object has no attribute 'text'"). reflexivity.
Defined.

(** C7, on the budget meeting: what is returned is the first choice. *)
Lemma process_summary_generation_success_witness :
  exists choice : Choice, budget_summary = message_content choice.
Proof.
  destruct (proj1 process_summary_generation_success Db (db_handler budget_provider)
              ∅ (PyInt 1) (PyStr "u1") budget_db budget_summary eq_refl)
    as (before & tc & response & choice & rest & summary & _ & _ & _ & _ & Hecho).
  exists choice. apply Hecho.
  intros transcript_id text d. simpl. unfold upsert_summary.
  destruct (summaries d !! transcript_id); eexists; split; reflexivity.
Defined.

(** C10, for a transcript deleted between the two lookups. *)
Lemma process_summary_generation_vanished_transcript_witness :
  result (run vanishing_transcript
              (process_summary_generation ∅ (PyInt 1) (PyStr "u1")) 0%nat)
    = inl (HTTPException 500
             (error_prefix +:+ "'NoneType' object has no attribute 'text'")).
Proof.
  destruct (process_summary_generation_vanished_transcript vanishing_transcript
              ∅ (PyInt 1) (PyStr "u1") 0%nat 2%nat eq_refl eq_refl) as (Hr & _).
  exact Hr.
Defined.

(** ** Further properties of the three functions *)

Ltac unfold_module :=
  unfold process_summary_generation, process_summary_generation_try,
    process_summary_generation_except, validate_access_permissions,
    summarize_and_store, generate_summary_content, content_or_text.

Ltac in_cases :=
  repeat match goal with
         | H : In _ _ |- _ => simpl in H
         | H : _ \/ _ |- _ => destruct H as [H | H]
         | H : False |- _ => destruct H
         end;
  simplify_eq.

(** [str] of an [int] reads back as that integer. *)
Lemma py_str_int_parses (z : Z) :
  NilZero.int_of_string (py_str (PyInt z)) = Some (Z.to_int z).
Proof.
  unfold py_str. apply NilZero.isi.
  - destruct z; simpl; try discriminate. intros [= H]. exact (Unsigned.to_uint_nonnil _ H).
  - destruct z; simpl; try discriminate. intros [= H]. exact (Unsigned.to_uint_nonnil _ H).
Qed.

(** Distinct integers print differently. *)
Lemma py_str_int_inj (a b : Z) : py_str (PyInt a) = py_str (PyInt b) -> a = b.
Proof.
  intros Heq. apply DecimalZ.to_int_inj.
  pose proof (py_str_int_parses a) as Ha. rewrite Heq, py_str_int_parses in Ha.
  injection Ha as Ha. symmetry. exact Ha.
Qed.

Section Further.
Context {W : Type} (h : handler W).

(** X3. When one of the orchestrator's lookups raises, in validation or at
    the second transcript lookup, an [HTTPException] leaves as it is and
    unlogged, any other exception is logged once and becomes a 500 with its
    message; no completion call and no write is made. *)
Theorem process_summary_generation_lookup_raises (environ : gmap string string)
    (transcript_id user_id : pyval) (w : W) (c : call) (e : exn) :
  let o := run h (process_summary_generation environ transcript_id user_id) w in
  In (c, e) (raised_by (trace o)) ->
  is_lookup c = true ->
  result o = inl (match e with
                  | HTTPException _ _ => e
                  | Exception msg => HTTPException 500 (error_prefix +:+ msg)
                  end) /\
  error_logs (trace o) = match e with
                         | HTTPException _ _ => []
                         | Exception msg => [error_prefix +:+ msg]
                         end /\
  List.filter is_completion (calls (trace o)) = [] /\
  List.filter is_write (calls (trace o)) = [].
Proof.
  cbv zeta. unfold_module.
  run_cases h; intros Hin Hc; in_cases; try discriminate; repeat split.
Qed.

(** X4. When [create_summary] raises, an [HTTPException] leaves as it is,
    any other exception is logged once and becomes a 500 with its message;
    the one completion call has been made, the write was attempted once for
    the transcript asked for and is not repeated. *)
Theorem process_summary_generation_write_raises (environ : gmap string string)
    (transcript_id user_id : pyval) (w : W) (c : call) (e : exn) :
  let o := run h (process_summary_generation environ transcript_id user_id) w in
  In (c, e) (raised_by (trace o)) ->
  is_write c = true ->
  result o = inl (match e with
                  | HTTPException _ _ => e
                  | Exception msg => HTTPException 500 (error_prefix +:+ msg)
                  end) /\
  error_logs (trace o) = match e with
                         | HTTPException _ _ => []
                         | Exception msg => [error_prefix +:+ msg]
                         end /\
  length (List.filter is_completion (calls (trace o))) = 1%nat /\
  List.filter is_write (calls (trace o)) = [c] /\
  exists summary_content : string, c = create_summary transcript_id summary_content.
Proof.
  cbv zeta. unfold_module.
  run_cases h; intros Hin Hc; in_cases; try discriminate; repeat split; eexists; reflexivity.
Qed.

(** X5. A request costs at most four lookups, one completion call and one
    write, and at most one call raises: nothing is retried and nothing is
    called after a collaborator has raised. *)
Theorem process_summary_generation_bounded (environ : gmap string string)
    (transcript_id user_id : pyval) (w : W) :
  let o := run h (process_summary_generation environ transcript_id user_id) w in
  (length (List.filter is_lookup (calls (trace o))) <= 4)%nat /\
  (length (List.filter is_completion (calls (trace o))) <= 1)%nat /\
  (length (List.filter is_write (calls (trace o))) <= 1)%nat /\
  (length (raised_by (trace o)) <= 1)%nat.
Proof.
  cbv zeta. unfold_module. run_cases h; simpl; repeat split; lia.
Qed.

(** X6. Every run of the orchestrator logs the request first and calls
    [logger.error] at most once; a run that returns has logged no error
    and exactly three info entries. *)
Theorem process_summary_generation_logs (environ : gmap string string)
    (transcript_id user_id : pyval) (w : W) :
  let o := run h (process_summary_generation environ transcript_id user_id) w in
  (length (error_logs (trace o)) <= 1)%nat /\
  (exists rest : list string,
      info_logs (trace o) = request_log transcript_id user_id :: rest) /\
  (forall s, result o = inr s ->
             error_logs (trace o) = [] /\ length (info_logs (trace o)) = 3%nat).
Proof.
  cbv zeta. unfold_module.
  run_cases h; simpl; (split; [lia | split; [eexists; reflexivity |]]);
    intros returned Hret; try discriminate Hret; split; reflexivity.
Qed.

(** X7. Unless a [crud] call itself raises an [HTTPException], every
    failure of the orchestrator is one of the module's own: one of the
    three 404s, the 403, or a 500 whose detail begins with the fixed
    prefix; and the detail of such a 500 is exactly the one error entry
    that was logged. *)
Theorem process_summary_generation_failures (environ : gmap string string)
    (transcript_id user_id : pyval) (w : W) :
  let o := run h (process_summary_generation environ transcript_id user_id) w in
  (forall c status_code detail,
      In (c, HTTPException status_code detail) (raised_by (trace o)) ->
      is_completion c = true) ->
  forall e, result o = inl e ->
    module_failure e /\
    (forall detail, e = HTTPException 500 detail -> error_logs (trace o) = [detail]).
Proof.
  cbv zeta. unfold_module.
  run_cases h; simpl; intros Hno e' He; simplify_eq;
    try (exfalso; specialize (Hno _ _ _ (or_introl eq_refl)); discriminate Hno);
    (split; [unfold module_failure; eauto 10 | intros d Hd; simplify_eq; reflexivity]).
Qed.

(** X1. The orchestrator makes a completion call or a write only after
    validation has returned: whenever its trace has either, the validator,
    run where the orchestrator ran it, raised nothing. *)
Theorem process_summary_generation_gate (environ : gmap string string)
    (transcript_id user_id : pyval) (w : W) :
  let ov := run h (validate_access_permissions transcript_id user_id)
                (snd (h (logger_info (request_log transcript_id user_id)) w)) in
  let o := run h (process_summary_generation environ transcript_id user_id) w in
  List.filter is_completion (calls (trace o)) <> [] \/
  List.filter is_write (calls (trace o)) <> [] ->
  result ov = inr tt.
Proof.
  cbv zeta. unfold_module.
  run_cases h; simpl; intros [Hn | Hn]; try reflexivity; exfalso; apply Hn; reflexivity.
Qed.

(** X2. The validator has no handler of its own: when a lookup raises, the
    validator raises that very exception, logs nothing, and no other call
    has raised; the call that raised is a lookup. *)
Theorem validate_access_permissions_lookup_raises (transcript_id user_id : pyval) (w : W)
    (c : call) (e : exn) :
  let o := run h (validate_access_permissions transcript_id user_id) w in
  In (c, e) (raised_by (trace o)) ->
  result o = inl e /\
  raised_by (trace o) = [(c, e)] /\
  error_logs (trace o) = [] /\
  is_lookup c = true.
Proof.
  cbv zeta. unfold_module. run_cases h; intros Hin; in_cases; repeat split.
Qed.

(** X8. Whatever the completion call does, the generator makes exactly one
    completion call and either returns, having logged no error, or raises
    an [HTTPException] with status 500 whose detail begins with the fixed
    prefix and is the one error entry it logged; it raises nothing else. *)
Theorem generate_summary_content_outcomes (environ : gmap string string)
    (transcript_content : string) (w : W) :
  let o := run h (generate_summary_content environ transcript_content) w in
  length (List.filter is_completion (calls (trace o))) = 1%nat /\
  match result o with
  | inr _ => error_logs (trace o) = []
  | inl e =>
      exists msg : string,
        e = HTTPException 500 (error_prefix +:+ msg) /\
        error_logs (trace o) = [error_prefix +:+ msg]
  end.
Proof.
  cbv zeta. unfold_module. run_cases h; split; try reflexivity; eexists; split; reflexivity.
Qed.

(** X10. Whatever [create_summary] is called with, the transcript id is the
    one of the request, validation has returned, and the text is the
    content of the first choice of a response the completion call returned
    in the same run. *)
Theorem process_summary_generation_written_text (environ : gmap string string)
    (transcript_id user_id : pyval) (w : W) (k : pyval) (text : string) :
  let ov := run h (validate_access_permissions transcript_id user_id)
                (snd (h (logger_info (request_log transcript_id user_id)) w)) in
  let o := run h (process_summary_generation environ transcript_id user_id) w in
  In (create_summary k text) (calls (trace o)) ->
  k = transcript_id /\
  result ov = inr tt /\
  exists (response : ChatCompletion) (choice : Choice) (rest : list Choice),
    In response (completion_replies (trace o)) /\
    choices response = choice :: rest /\
    text = message_content choice.
Proof.
  cbv zeta. unfold_module.
  run_cases h; intros Hin; in_cases;
    (split; [reflexivity | split; [reflexivity |]]);
    do 3 eexists; (split; [left; reflexivity | split; [eassumption | reflexivity]]).
Qed.

(** X11. The text sent for summarising is read from the record of the second
    lookup: its [content] when the record has that attribute, whatever
    [text] holds; otherwise its [text]; with neither, the [AttributeError]
    becomes a 500 and neither the completion call nor the write is made. *)
Theorem process_summary_generation_content_or_text (environ : gmap string string)
    (transcript_id user_id : pyval) (w : W) (t : Transcript.t) (w2 : W) :
  let ov := run h (validate_access_permissions transcript_id user_id)
                (snd (h (logger_info (request_log transcript_id user_id)) w)) in
  let o := run h (process_summary_generation environ transcript_id user_id) w in
  result ov = inr tt ->
  h (get_transcript_by_id transcript_id) (final ov) = (inr (Some t), w2) ->
  match Transcript.content t, Transcript.text t with
  | Some content, _ =>
      List.filter is_completion (calls (trace o))
      = [chat_completions_create (completion_request environ content)]
  | None, Some text =>
      List.filter is_completion (calls (trace o))
      = [chat_completions_create (completion_request environ text)]
  | None, None =>
      result o = inl (HTTPException 500
                        (error_prefix +:+ str_exn (AttributeError Transcript.class_name "text"))) /\
      List.filter is_completion (calls (trace o)) = [] /\
      List.filter is_write (calls (trace o)) = []
  end.
Proof.
  cbv zeta. unfold_module.
  run_cases h; intros Hv Hget; simplify_eq; repeat split.
Qed.

(** On a chain that resolves the validator returns exactly when the string
    forms agree. *)
Lemma validate_access_permissions_result (transcript_id user_id : pyval) (w : W)
    (t : Transcript.t) (v : Video.t) (m : Minutes.t) (w3 : W) :
  resolves h transcript_id w t v m w3 ->
  (result (run h (validate_access_permissions transcript_id user_id) w) = inr tt
   <-> py_str (Minutes.user_id m) = py_str user_id).
Proof.
  intros (w1 & w2 & H1 & H2 & H3). unfold validate_access_permissions.
  simpl. rewrite H1. simpl. rewrite H2. simpl. rewrite H3. simpl.
  destruct (String.eqb _ _) eqn:Heq; simpl.
  - apply String.eqb_eq in Heq. split; [intros _; exact Heq | reflexivity].
  - apply String.eqb_neq in Heq. split; [discriminate | intros Hs; destruct (Heq Hs)].
Qed.

(** X12. Ownership is compared through [str]: an integer owner id admits
    exactly the same integer, and of the strings exactly its decimal
    rendering, and never [None]; an owner id that is [None] admits the
    requester whose id is the string "None". *)
Theorem validate_access_permissions_id_types (transcript_id : pyval) (w : W)
    (t : Transcript.t) (v : Video.t) (m : Minutes.t) (w3 : W) :
  let granted := fun user_id =>
    result (run h (validate_access_permissions transcript_id user_id) w) = inr tt in
  resolves h transcript_id w t v m w3 ->
  (forall a b : Z, Minutes.user_id m = PyInt a -> (granted (PyInt b) <-> a = b)) /\
  (forall (a : Z) (s : string),
      Minutes.user_id m = PyInt a -> (granted (PyStr s) <-> s = py_str (PyInt a))) /\
  (forall a : Z, Minutes.user_id m = PyInt a -> ~ granted PyNone) /\
  (Minutes.user_id m = PyNone -> granted (PyStr "None")).
Proof.
  cbv zeta. intros Hres.
  pose proof (fun user_id =>
                validate_access_permissions_result transcript_id user_id w t v m w3 Hres)
    as Hiff.
  repeat split.
  - intros Hg. apply Hiff in Hg. rewrite H in Hg. apply py_str_int_inj. exact Hg.
  - intros ->. apply Hiff. rewrite H. reflexivity.
  - intros Hg. apply Hiff in Hg. rewrite H in Hg. symmetry. exact Hg.
  - intros ->. apply Hiff. rewrite H. reflexivity.
  - intros a Ha Hg. apply Hiff in Hg. rewrite Ha in Hg.
    pose proof (py_str_int_parses a) as Hp. rewrite Hg in Hp. discriminate Hp.
  - intros Ho. apply Hiff. rewrite Ho. reflexivity.
Qed.

(** X9. A response without choices: the generator turns the [IndexError] of
    [choices[0]] into a 500 after its one completion call and one error
    entry; the orchestrator raises that 500 and writes nothing. *)
Theorem generate_summary_content_no_choices (environ : gmap string string) :
  let detail := error_prefix +:+ "list index out of range" in
  (forall (transcript_content : string) (w : W) (response : ChatCompletion),
      let request := completion_request environ transcript_content in
      let o := run h (generate_summary_content environ transcript_content) w in
      fst (h (chat_completions_create request) w) = inr response ->
      choices response = [] ->
      result o = inl (HTTPException 500 detail) /\
      calls (trace o) = [chat_completions_create request; logger_error detail])
  /\
  (forall (transcript_id user_id : pyval) (w : W) (response : ChatCompletion),
      let o := run h (process_summary_generation environ transcript_id user_id) w in
      In response (completion_replies (trace o)) ->
      choices response = [] ->
      result o = inl (HTTPException 500 detail) /\
      error_logs (trace o) = [detail] /\
      List.filter is_write (calls (trace o)) = []).
Proof.
  cbv zeta. split.
  - intros transcript_content w response Hr Hc.
    rewrite run_generate_summary_content. cbv zeta. rewrite Hr, Hc. split; reflexivity.
  - intros transcript_id user_id w response. unfold_module.
    run_cases h; intros Hin Hc; in_cases; try congruence; repeat split.
Qed.

(** X13. When the chain resolves to the requester's own minutes-document,
    the second lookup finds a transcript with a text, the completion call
    returns a first choice and [create_summary] returns a record, the
    orchestrator returns that record's content after exactly these nine
    calls. *)
Theorem process_summary_generation_succeeds (environ : gmap string string)
    (transcript_id user_id : pyval) (w : W)
    (t : Transcript.t) (v : Video.t) (m : Minutes.t) (w3 : W)
    (t' : Transcript.t) (w4 : W) (transcript_content : string)
    (response : ChatCompletion) (choice : Choice) (rest : list Choice) (w5 : W)
    (summary : Summary.t) (w6 : W) :
  resolves h transcript_id (snd (h (logger_info (request_log transcript_id user_id)) w))
           t v m w3 ->
  py_str (Minutes.user_id m) = py_str user_id ->
  h (get_transcript_by_id transcript_id) w3 = (inr (Some t'), w4) ->
  content_or_text (Some t') = Ret transcript_content ->
  h (chat_completions_create (completion_request environ transcript_content)) w4
    = (inr response, w5) ->
  choices response = choice :: rest ->
  h (create_summary transcript_id (message_content choice))
    (snd (h (logger_info "要約の生成が完了しました") w5)) = (inr summary, w6) ->
  run h (process_summary_generation environ transcript_id user_id) w =
  Outcome (inr (Summary.content summary))
          (snd (h (logger_info (stored_log summary)) w6))
          [ Event (logger_info (request_log transcript_id user_id)) tt;
            Event (get_transcript_by_id transcript_id) (inr (Some t));
            Event (get_video_by_id (Transcript.video_id t)) (inr (Some v));
            Event (get_minutes (Video.minutes_id v)) (inr (Some m));
            Event (get_transcript_by_id transcript_id) (inr (Some t'));
            Event (chat_completions_create (completion_request environ transcript_content))
                  (inr response);
            Event (logger_info "要約の生成が完了しました") tt;
            Event (create_summary transcript_id (message_content choice)) (inr summary);
            Event (logger_info (stored_log summary)) tt ].
Proof.
  intros Hres Heq Hget Hct Hchat Hch Hcreate.
  rewrite run_process_summary_generation. cbv zeta.
  rewrite run_process_summary_generation_try. cbv zeta.
  rewrite (validate_access_permissions_granted h _ _ _ _ _ _ _ Hres Heq).
  cbn [result final trace].
  assert (Hrun : run h (summarize_and_store environ transcript_id) w3 =
                 Outcome (inr (Summary.content summary))
                         (snd (h (logger_info (stored_log summary)) w6))
                         [ Event (get_transcript_by_id transcript_id) (inr (Some t'));
                           Event (chat_completions_create
                                    (completion_request environ transcript_content))
                                 (inr response);
                           Event (logger_info "要約の生成が完了しました") tt;
                           Event (create_summary transcript_id (message_content choice))
                                 (inr summary);
                           Event (logger_info (stored_log summary)) tt ]).
  { unfold summarize_and_store, generate_summary_content. simpl. rewrite Hget. simpl.
    unfold content_or_text in Hct.
    destruct (Transcript.content t') as [c |];
      [| destruct (Transcript.text t') as [x |]; [| discriminate Hct]];
      injection Hct as ->; simpl; rewrite Hchat; simpl; rewrite Hch; simpl;
      destruct (h (logger_info "要約の生成が完了しました") w5) as [[] w5'];
      simpl in *; rewrite Hcreate; simpl;
      destruct (h (logger_info (stored_log summary)) w6) as [[] w7]; reflexivity. }
  rewrite Hrun. reflexivity.
Qed.
End Further.

(** X1, on the budget meeting: the completion call was made, so validation
    had returned. *)
Lemma process_summary_generation_gate_witness :
  result (run (db_handler budget_provider)
              (validate_access_permissions (PyInt 1) (PyStr "u1"))
              (snd (db_handler budget_provider
                      (logger_info (request_log (PyInt 1) (PyStr "u1"))) budget_db)))
  = inr tt.
Proof.
  apply (process_summary_generation_gate (db_handler budget_provider)
           ∅ (PyInt 1) (PyStr "u1") budget_db).
  left. discriminate.
Defined.

(** X2, when the video lookup loses its connection. *)
Lemma validate_access_permissions_lookup_raises_witness :
  result (run (faulty video_lookup_fails budget_provider)
              (validate_access_permissions (PyInt 1) (PyStr "u1")) budget_db)
  = inl (Exception "connection lost").
Proof.
  destruct (validate_access_permissions_lookup_raises
              (faulty video_lookup_fails budget_provider) (PyInt 1) (PyStr "u1") budget_db
              (get_video_by_id (PyInt 7)) (Exception "connection lost"))
    as (Hr & _).
  - left. reflexivity.
  - exact Hr.
Defined.

(** X3, when the video lookup loses its connection. *)
Lemma process_summary_generation_lookup_raises_witness :
  result (run (faulty video_lookup_fails budget_provider)
              (process_summary_generation ∅ (PyInt 1) (PyStr "u1")) budget_db)
  = inl (HTTPException 500 (error_prefix +:+ "connection lost")).
Proof.
  destruct (process_summary_generation_lookup_raises
              (faulty video_lookup_fails budget_provider) ∅ (PyInt 1) (PyStr "u1")
              budget_db (get_video_by_id (PyInt 7)) (Exception "connection lost"))
    as (Hr & _).
  - left. reflexivity.
  - reflexivity.
  - exact Hr.
Defined.

(** X4, when the write finds the disk full. *)
Lemma process_summary_generation_write_raises_witness :
  result (run (faulty write_fails budget_provider)
              (process_summary_generation ∅ (PyInt 1) (PyStr "u1")) budget_db)
  = inl (HTTPException 500 (error_prefix +:+ "disk full")).
Proof.
  destruct (process_summary_generation_write_raises
              (faulty write_fails budget_provider) ∅ (PyInt 1) (PyStr "u1")
              budget_db (create_summary (PyInt 1) budget_summary) (Exception "disk full"))
    as (Hr & _).
  - left. reflexivity.
  - reflexivity.
  - exact Hr.
Defined.

(** X7, for a user who does not own the budget meeting. *)
Lemma process_summary_generation_failures_witness :
  module_failure (HTTPException 403 "この議事録へのアクセス権限がありません").
Proof.
  apply (process_summary_generation_failures (db_handler budget_provider)
           ∅ (PyInt 1) (PyStr "u2") budget_db).
  - intros c status_code detail Hin. simpl in Hin. destruct Hin.
  - reflexivity.
Defined.

(** X9, against a provider that returns no choice. *)
Lemma generate_summary_content_no_choices_witness :
  result (run (db_handler silent_provider)
              (process_summary_generation ∅ (PyInt 1) (PyStr "u1")) budget_db)
  = inl (HTTPException 500 (error_prefix +:+ "list index out of range")).
Proof.
  destruct (generate_summary_content_no_choices (db_handler silent_provider) ∅)
    as [_ Horch].
  destruct (Horch (PyInt 1) (PyStr "u1") budget_db (mkChatCompletion [])) as (Hr & _).
  - left. reflexivity.
  - reflexivity.
  - exact Hr.
Defined.

(** X10, on the budget meeting: what was written is a first choice. *)
Lemma process_summary_generation_written_text_witness :
  exists (response : ChatCompletion) (rest : list Choice),
    choices response = mkChoice budget_summary :: rest.
Proof.
  destruct (process_summary_generation_written_text (db_handler budget_provider)
              ∅ (PyInt 1) (PyStr "u1") budget_db (PyInt 1) budget_summary)
    as (_ & _ & response & choice & rest & _ & Hch & Htext).
  - do 7 right. left. reflexivity.
  - exists response, rest. rewrite Hch. destruct choice as [content].
    simpl in Htext. rewrite <- Htext. reflexivity.
Defined.

(** X11, for a transcript stored under [text]. *)
Lemma process_summary_generation_content_or_text_witness :
  List.filter is_completion
    (calls (trace (run (db_handler budget_provider)
                       (process_summary_generation ∅ (PyInt 1) (PyStr "u1")) legacy_db)))
  = [chat_completions_create (completion_request ∅ "Meeting about hiring.")].
Proof.
  exact (process_summary_generation_content_or_text (db_handler budget_provider)
           ∅ (PyInt 1) (PyStr "u1") legacy_db
           (Transcript.mk (PyInt 7) None (Some "Meeting about hiring.")) legacy_db
           eq_refl eq_refl).
Defined.

(** X12, for owner 42 and the requester "42". *)
Lemma validate_access_permissions_id_types_witness :
  result (run (db_handler budget_provider)
              (validate_access_permissions (PyInt 1) (PyStr "42")) numbered_db)
  = inr tt.
Proof.
  destruct (validate_access_permissions_id_types (db_handler budget_provider)
              (PyInt 1) numbered_db
              (Transcript.mk (PyInt 7) (Some "Meeting about budget.") None)
              (Video.mk (PyInt 3)) (Minutes.mk (PyInt 42)) numbered_db)
    as (_ & Hstr & _).
  - exists numbered_db, numbered_db. repeat split.
  - apply (Hstr 42 "42"); reflexivity.
Defined.

(** X13, on the budget meeting. *)
Lemma process_summary_generation_succeeds_witness :
  result (run (db_handler budget_provider)
              (process_summary_generation ∅ (PyInt 1) (PyStr "u1")) budget_db)
  = inr budget_summary.
Proof.
  rewrite (process_summary_generation_succeeds (db_handler budget_provider)
             ∅ (PyInt 1) (PyStr "u1") budget_db
             (Transcript.mk (PyInt 7) (Some "Meeting about budget.") None)
             (Video.mk (PyInt 3)) (Minutes.mk (PyStr "u1")) budget_db
             (Transcript.mk (PyInt 7) (Some "Meeting about budget.") None) budget_db
             "Meeting about budget."
             (mkChatCompletion [mkChoice budget_summary]) (mkChoice budget_summary) []
             budget_db (Summary.mk (PyInt 1) budget_summary)
             (snd (upsert_summary budget_db (PyInt 1) budget_summary))).
  - reflexivity.
  - exists budget_db, budget_db. repeat split.
  - reflexivity.
  - reflexivity.
  - reflexivity.
  - reflexivity.
  - reflexivity.
  - reflexivity.
Defined.
